(** * DevHub API: a shallow embedding of [snippets/code/python/fastapi-basic.py]

    The Python module declares two pydantic models, one authentication
    dependency and four route handlers on top of FastAPI.  The embedding keeps
    the module's own code (the models and their field constraints, the
    dependency, the handlers, the route table built by the decorators) as Rocq
    definitions, and gives the part of the framework that the module relies on
    (exceptions, logging, dependency resolution, request dispatch) as a small
    explicit model.

    Conventions.
    - A Python [str] is a [string]; one [ascii] stands for one character, so
      [String.length] is Python's [len].
    - A Python [int] is a [Z].
    - An [async def] is a computation in the monad [M]: it may raise an
      [HTTPException] and it may append records to the log.  Coroutines of one
      request run one after the other, so no interleaving is modelled.
    - The CORS middleware only adds response headers and answers preflight
      requests; responses are modelled without their CORS headers. *)

From Stdlib Require Import String Ascii List ZArith Bool Lia.
Import ListNotations.

Open Scope string_scope.
Open Scope Z_scope.

Set Implicit Arguments.

(* ================================================================== *)
(** * Exceptions and logging *)

(** [starlette.status]: the two constants the module uses. *)
Module status.
Definition HTTP_400_BAD_REQUEST : Z := 400.
Definition HTTP_401_UNAUTHORIZED : Z := 401.
End status.

(** [fastapi.HTTPException(status_code, detail, headers=None)]. *)
Record HTTPException : Type := mkHTTPException {
  status_code : Z;
  detail : string;
  headers : option (list (string * string))
}.

(** [logging]: levels, and the records a handler has emitted so far. *)
Module logging.
Definition INFO : Z := 20.

Record LogRecord : Type := mkLogRecord {
  levelno : Z;
  msg : string
}.

(** [logging.basicConfig(level=logging.INFO)]: the root level, which the
    module's logger inherits. *)
Definition basicConfig_level : Z := INFO.

Definition isEnabledFor (level : Z) : bool := basicConfig_level <=? level.
End logging.

(** The world a request runs in: the log written so far.  The module has no
    other variable that a handler assigns. *)
Definition World : Type := list logging.LogRecord.

(** An [async def] body: raise or return, and the world after it. *)
Definition M (A : Type) : Type := World -> (HTTPException + A) * World.

Definition ret {A} (a : A) : M A := fun w => (inr a, w).

Definition raise {A} (e : HTTPException) : M A := fun w => (inl e, w).

Definition bind {A B} (m : M A) (k : A -> M B) : M B :=
  fun w =>
    match m w with
    | (inl e, w') => (inl e, w')
    | (inr a, w') => k a w'
    end.

Notation "x <- m ;; k" := (bind m (fun x => k))
  (at level 61, m at next level, right associativity).
Notation "m ;;; k" := (bind m (fun _ => k))
  (at level 61, right associativity).

(** [logger.info(msg)]. *)
Definition logger_info (message : string) : M unit :=
  fun w =>
    if logging.isEnabledFor logging.INFO
    then (inr tt, (w ++ [logging.mkLogRecord logging.INFO message])%list)
    else (inr tt, w).

(* ================================================================== *)
(** * Python truth values of strings *)

(** [bool(s)] for a [str]: false exactly for the empty string. *)
Definition truthy (s : string) : bool :=
  match s with
  | EmptyString => false
  | String _ _ => true
  end.

(** [a != b] on [str]. *)
Definition str_ne (a b : string) : bool := negb (String.eqb a b).

(* ================================================================== *)
(** * The authentication dependency *)

(** [fastapi.security.HTTPAuthorizationCredentials]. *)
Record HTTPAuthorizationCredentials : Type := mkCredentials {
  scheme : string;
  credentials : string
}.

(** The guard of [verify_token], line 49:
    [not token or token != "valid-token"]. *)
Definition verify_token_guard (token : string) : bool :=
  negb (truthy token) || str_ne token "valid-token".

(** The exception [verify_token] raises, lines 50-54. *)
Definition unauthorized : HTTPException :=
  mkHTTPException status.HTTP_401_UNAUTHORIZED
                  "Invalid authentication credentials"
                  (Some [("WWW-Authenticate", "Bearer")]).

(** [async def verify_token(credentials = Depends(security))]. *)
Definition verify_token (c : HTTPAuthorizationCredentials) : M string :=
  let token := credentials c in
  if verify_token_guard token
  then raise unauthorized
  else ret token.

(** The guard the claim compares with: [token != "valid-token"] alone. *)
Definition simple_guard (token : string) : bool :=
  str_ne token "valid-token".

(* ================================================================== *)
(** * Regular expressions: the fragment of Python's [re] the module uses *)

Module re.

(** A set of characters: a literal, [[...]] or [[^...]]. *)
Inductive charset : Type :=
| Exactly (c : ascii)
| OneOf (cs : list ascii)
| NoneOf (cs : list ascii).

(** One item of a pattern: [^], [$], a character set, or a set under [+]. *)
Inductive item : Type :=
| Bol
| Eol
| One (cs : charset)
| Many1 (cs : charset).

Definition mem (c : ascii) (cs : charset) : bool :=
  match cs with
  | Exactly d => Ascii.eqb c d
  | OneOf l => existsb (Ascii.eqb c) l
  | NoneOf l => negb (existsb (Ascii.eqb c) l)
  end.

(** ** Reading a pattern *)

Inductive pstate : Type :=
| Top
| Escape
| ClassOpen
| Class (negated : bool) (members : list ascii).

Definition is_alnum (c : ascii) : bool :=
  let n := nat_of_ascii c in
  ((48 <=? n) && (n <=? 57) || (65 <=? n) && (n <=? 90)
   || (97 <=? n) && (n <=? 122))%nat.

(** Characters with a meaning of their own that this fragment leaves out. *)
Definition unsupported (c : ascii) : bool :=
  existsb (Ascii.eqb c) (list_ascii_of_string ".*?(){}|]").

(** [compile_from st acc p]: one pass over the pattern text; [acc] holds the
    items read so far, last one first.  A pattern outside the fragment gives
    [None]. *)
Fixpoint compile_from (st : pstate) (acc : list item) (p : string)
  : option (list item) :=
  match p with
  | EmptyString =>
      match st with
      | Top => Some (rev acc)
      | _ => None
      end
  | String c p' =>
      match st with
      | Top =>
          if Ascii.eqb c "^" then compile_from Top (Bol :: acc) p'
          else if Ascii.eqb c "$" then compile_from Top (Eol :: acc) p'
          else if Ascii.eqb c "\" then compile_from Escape acc p'
          else if Ascii.eqb c "[" then compile_from ClassOpen acc p'
          else if Ascii.eqb c "+" then
            match acc with
            | One cs :: acc' => compile_from Top (Many1 cs :: acc') p'
            | _ => None
            end
          else if unsupported c then None
          else compile_from Top (One (Exactly c) :: acc) p'
      | Escape =>
          if is_alnum c then None
          else compile_from Top (One (Exactly c) :: acc) p'
      | ClassOpen =>
          if Ascii.eqb c "^" then compile_from (Class true []) acc p'
          else if existsb (Ascii.eqb c) (list_ascii_of_string "]\-[")
          then None
          else compile_from (Class false [c]) acc p'
      | Class negated members =>
          if Ascii.eqb c "]" then
            match members with
            | [] => None
            | _ :: _ =>
                compile_from Top
                  (One (if negated then NoneOf members else OneOf members)
                   :: acc) p'
            end
          else if existsb (Ascii.eqb c) (list_ascii_of_string "\-[")
          then None
          else compile_from (Class negated (members ++ [c])) acc p'
      end
  end.

Definition compile (p : string) : option (list item) :=
  compile_from Top [] p.

(** ** Matching *)

(** [$]: at the end of the text, or just before a newline that ends it. *)
Definition at_eol (s : string) : bool :=
  match s with
  | EmptyString => true
  | String c EmptyString => Ascii.eqb c "010"
  | _ => false
  end.

(** [cs+] followed by the rest of the pattern [k]: at least one character of
    [cs], then either more of them or the rest. *)
Fixpoint many1 (cs : charset) (k : string -> bool) (s : string) : bool :=
  match s with
  | EmptyString => false
  | String c s' => mem c cs && (many1 cs k s' || k s')
  end.

(** [match_here items at_start s]: do the items match a prefix of [s]?
    [at_start] tells whether [s] is the whole text. *)
Fixpoint match_here (items : list item) (at_start : bool) (s : string)
  : bool :=
  match items with
  | [] => true
  | Bol :: items' => at_start && match_here items' at_start s
  | Eol :: items' => at_eol s && match_here items' at_start s
  | One cs :: items' =>
      match s with
      | EmptyString => false
      | String c s' => mem c cs && match_here items' false s'
      end
  | Many1 cs :: items' => many1 cs (match_here items' false) s
  end.

(** [re.match(pattern, s)] as a truth value. *)
Definition match_ (pattern s : string) : bool :=
  match compile pattern with
  | Some items => match_here items true s
  | None => false
  end.

End re.

(** ** The language of [[^@]+@[^@]+\.[^@]+], in the usual sense

    What "a text matches the expression" means when read as a statement about
    the whole text: a plain regular expression and its language. *)
Module Lang.

Inductive regex : Type :=
| Chr (c : ascii)
| NotChr (c : ascii)
| Cat (r1 r2 : regex)
| Plus (r : regex).

Inductive matches : regex -> string -> Prop :=
| m_chr c : matches (Chr c) (String c "")
| m_notchr c d : d <> c -> matches (NotChr c) (String d "")
| m_cat r1 r2 s1 s2 :
    matches r1 s1 -> matches r2 s2 -> matches (Cat r1 r2) (s1 ++ s2)
| m_plus_one r s : matches r s -> matches (Plus r) s
| m_plus_more r s1 s2 :
    matches r s1 -> matches (Plus r) s2 -> matches (Plus r) (s1 ++ s2).

(** [^[^@]+@[^@]+\.[^@]+$] without its anchors. *)
Definition email : regex :=
  Cat (Plus (NotChr "@"))
      (Cat (Chr "@")
           (Cat (Plus (NotChr "@"))
                (Cat (Chr ".") (Plus (NotChr "@"))))).

End Lang.

(* ================================================================== *)
(** * The pydantic models *)

(** The annotations the module's fields carry. *)
Inductive annotation : Type := Tstr | Tint.

(** [pydantic.Field(default, min_length=, max_length=, regex=)]; the module
    always passes [...] as the default, which makes the field required. *)
Record FieldInfo : Type := mkField {
  min_length : option nat;
  max_length : option nat;
  regex : option string
}.

(** A field with an annotation only: no constraint. *)
Definition bare : FieldInfo := mkField None None None.

(** One declared field of a model. *)
Record ModelField : Type := mkModelField {
  field_name : string;
  field_type : annotation;
  required : bool;
  field_info : FieldInfo
}.

(** A [BaseModel] subclass: its name and its fields in declaration order. *)
Record ModelClass : Type := mkModelClass {
  class_name : string;
  fields : list ModelField
}.

(** The checks pydantic runs on a [str] value under a [FieldInfo]: the two
    length bounds on [len(v)], then [re.match(regex, v)]. *)
Definition validate_str (info : FieldInfo) (v : string) : bool :=
  let v_len := String.length v in
  match min_length info with
  | Some n => (n <=? v_len)%nat
  | None => true
  end
  && match max_length info with
     | Some n => (v_len <=? n)%nat
     | None => true
     end
  && match regex info with
     | Some pattern => re.match_ pattern v
     | None => true
     end.

(** [class UserCreate(BaseModel)], lines 36-38. *)
Module UserCreate.

Record t : Type := mk { username : string; email : string }.

Definition username_field : FieldInfo :=
  mkField (Some 3%nat) (Some 50%nat) None.

Definition email_field : FieldInfo :=
  mkField None None (Some "^[^@]+@[^@]+\.[^@]+$").

Definition class : ModelClass :=
  mkModelClass "UserCreate"
    [ mkModelField "username" Tstr true username_field;
      mkModelField "email" Tstr true email_field ].

(** [UserCreate(username=..., email=...)]: the instance, or [None] when a
    field is refused. *)
Definition validate (username email : string) : option t :=
  if validate_str username_field username && validate_str email_field email
  then Some (mk username email)
  else None.

End UserCreate.

(** [class UserResponse(BaseModel)], lines 40-43. *)
Module UserResponse.

Record t : Type := mk { id : Z; username : string; email : string }.

Definition class : ModelClass :=
  mkModelClass "UserResponse"
    [ mkModelField "id" Tint true bare;
      mkModelField "username" Tstr true bare;
      mkModelField "email" Tstr true bare ].

End UserResponse.

(** The [BaseModel] subclasses of the module, in the order they are declared. *)
Definition models : list ModelClass := [UserCreate.class; UserResponse.class].

(* ================================================================== *)
(** * The route handlers *)

(** What a handler hands back to the framework: a [dict] of strings, or a
    model instance. *)
Inductive Content : Type :=
| Dict (items : list (string * string))
| Model (u : UserResponse.t).

(** [async def root()], lines 58-60. *)
Definition root : M Content :=
  ret (Dict [("message", "Welcome to DevHub API")]).

(** [async def health_check()], lines 62-64. *)
Definition health_check : M Content :=
  ret (Dict [("status", "healthy"); ("service", "devhub-api")]).

(** [async def create_user(user, token)], lines 66-77. *)
Definition create_user (user : UserCreate.t) (token : string)
  : M UserResponse.t :=
  logger_info ("Creating user: " ++ UserCreate.username user) ;;;
  ret (UserResponse.mk 1 (UserCreate.username user) (UserCreate.email user)).

(** The exception [get_user] raises, lines 85-88. *)
Definition invalid_user_id : HTTPException :=
  mkHTTPException status.HTTP_400_BAD_REQUEST "Invalid user ID" None.

(** [async def get_user(user_id, token)], lines 79-95. *)
Definition get_user (user_id : Z) (token : string) : M UserResponse.t :=
  if user_id <=? 0
  then raise invalid_user_id
  else ret (UserResponse.mk user_id "john_doe" "john@example.com").

(* ================================================================== *)
(** * The framework: requests, routes and dispatch *)

Inductive Method : Type := GET | POST | PUT | DELETE | PATCH | HEAD | OPTIONS.

Definition Method_eqb (a b : Method) : bool :=
  match a, b with
  | GET, GET | POST, POST | PUT, PUT | DELETE, DELETE
  | PATCH, PATCH | HEAD, HEAD | OPTIONS, OPTIONS => true
  | _, _ => false
  end.

(** The body of a request as the framework finds it: [Undecodable] when it
    is announced as JSON and the decoder refuses it; otherwise [Decoded],
    with the two text fields of [UserCreate] when the body gives them and
    [None] when there is no body or it gives no such fields. *)
Inductive Body : Type :=
| Undecodable
| Decoded (fields : option (string * string)).

(** A request as the framework presents it to a route.  [bearer] is what
    [security = HTTPBearer()] extracts from the [Authorization] header,
    [None] when the framework refuses the header; it yields credentials only
    for the scheme [bearer] and a token that is not empty.  A preflight
    request of the CORS protocol is answered by the middleware of lines
    27-33 before any route and is not a [Request] here. *)
Record Request : Type := mkRequest {
  method : Method;
  path : string;
  bearer : option HTTPAuthorizationCredentials;
  body : Body
}.

(** Answers the framework gives without running any code of the module:
    - [NotFound]: no route takes the path (404, or a redirection to the
      path with or without its final slash when that one has a route);
    - [MethodNotAllowed]: a route takes the path under another method (405);
    - [BodyDecodeError]: the body of a route that declares one could not be
      decoded (422 for text that is not JSON);
    - [NotAuthenticated]: [HTTPBearer] found no bearer credentials;
    - [RequestValidationError]: a parameter of the handler was refused
      (422). *)
Inductive FrameworkError : Type :=
| NotFound
| MethodNotAllowed
| BodyDecodeError
| NotAuthenticated
| RequestValidationError.

(** [Documentation page] is a page the framework writes by itself. *)
Inductive Response : Type :=
| Success (c : Content)
| Failure (e : HTTPException)
| Rejected (e : FrameworkError)
| Documentation (page : string).

(** The signatures of the module's handlers: no parameter; a [UserCreate] body
    and a [Depends(...)] value; an [int] path parameter and a [Depends(...)]
    value.  [FrameworkPage] is an endpoint of the framework's own. *)
Inductive Endpoint : Type :=
| NoParams (f : M Content)
| BodyParam (dep : HTTPAuthorizationCredentials -> M string)
            (f : UserCreate.t -> string -> M UserResponse.t)
| IntPathParam (name : string)
               (dep : HTTPAuthorizationCredentials -> M string)
               (f : Z -> string -> M UserResponse.t)
| FrameworkPage (page : string).

Record Route : Type := mkRoute {
  route_methods : list Method;
  route_path : string;
  route_name : string;
  endpoint : Endpoint
}.


(** [FastAPI(title=..., description=..., version=..., docs_url=...,
    redoc_url=...)], with the routes registered so far. *)
Record FastAPI : Type := mkFastAPI {
  title : string;
  description : string;
  version : string;
  docs_url : option string;
  redoc_url : option string;
  routes : list Route
}.

(** [app.add_api_route(path, endpoint, methods=[m])]: the route takes the
    one method it is given. *)
Definition add_api_route (m : Method) (p name : string) (e : Endpoint)
    (a : FastAPI) : FastAPI :=
  mkFastAPI (title a) (description a) (version a) (docs_url a) (redoc_url a)
            (routes a ++ [mkRoute [m] p name e]).

(** [app.add_route(path, page)], which the framework uses for its own pages:
    the route takes [GET], and [HEAD] with it. *)
Definition add_route (p page : string) (a : FastAPI) : FastAPI :=
  mkFastAPI (title a) (description a) (version a) (docs_url a) (redoc_url a)
            (routes a ++ [mkRoute [GET; HEAD] p page (FrameworkPage page)]).

(** [FastAPI.setup], run by the constructor: the schema under
    [/openapi.json], the Swagger page under [docs_url] with its redirect
    page, and the ReDoc page under [redoc_url]. *)
Definition setup (a : FastAPI) : FastAPI :=
  let a1 := add_route "/openapi.json" "openapi" a in
  let a2 :=
    match docs_url a1 with
    | Some url =>
        add_route "/docs/oauth2-redirect" "swagger_ui_redirect"
                  (add_route url "swagger_ui_html" a1)
    | None => a1
    end in
  match redoc_url a2 with
  | Some url => add_route url "redoc_html" a2
  | None => a2
  end.

(** The decorators [@app.get(path)] and [@app.post(path)]. *)
Definition app_get := add_api_route GET.
Definition app_post := add_api_route POST.

(** ** Path templates *)

(** [s.split(sep)]. *)
Fixpoint split_on (sep : ascii) (s : string) : list string :=
  match s with
  | EmptyString => [EmptyString]
  | String c s' =>
      if Ascii.eqb c sep then EmptyString :: split_on sep s'
      else match split_on sep s' with
           | h :: t => String c h :: t
           | [] => [String c EmptyString]
           end
  end.

(** The text before a closing brace that ends [s]. *)
Fixpoint until_close (s : string) : option string :=
  match s with
  | EmptyString => None
  | String c EmptyString => if Ascii.eqb c "}" then Some EmptyString else None
  | String c s' => option_map (String c) (until_close s')
  end.

(** The parameter a template segment [{name}] declares. *)
Definition param_name (seg : string) : option string :=
  match seg with
  | String c rest => if Ascii.eqb c "{" then until_close rest else None
  | EmptyString => None
  end.

(** Template segments against path segments: a literal segment must be equal,
    a parameter takes any non-empty segment. *)
Fixpoint match_segments (ts ps : list string)
  : option (list (string * string)) :=
  match ts, ps with
  | [], [] => Some []
  | t :: ts', p :: ps' =>
      match param_name t with
      | Some name =>
          if truthy p
          then option_map (cons (name, p)) (match_segments ts' ps')
          else None
      | None =>
          if String.eqb t p then match_segments ts' ps' else None
      end
  | _, _ => None
  end.

Definition match_path (template p : string)
  : option (list (string * string)) :=
  match_segments (split_on "/" template) (split_on "/" p).

Fixpoint lookup_param (name : string) (params : list (string * string))
  : option string :=
  match params with
  | [] => None
  | (n, v) :: rest => if String.eqb n name then Some v else lookup_param name rest
  end.

(** ** Routing: the first route whose path and method both match; a path
    that matches under another method only gives [MethodNotAllowed], no
    match gives [NotFound] (which stands for the redirection of a final
    slash too). *)
Fixpoint find_route (rs : list Route) (partial : bool) (r : Request)
  : FrameworkError + (Route * list (string * string)) :=
  match rs with
  | [] => inl (if partial then MethodNotAllowed else NotFound)
  | rt :: rs' =>
      match match_path (route_path rt) (path r) with
      | Some params =>
          if existsb (Method_eqb (method r)) (route_methods rt)
          then inr (rt, params)
          else find_route rs' true r
      | None => find_route rs' partial r
      end
  end.

(** ** Running an endpoint *)

Definition Handling : Type := World -> Response * World.

(** Run a coroutine of the module; an exception it raises is the response. *)
Definition and_then {A} (m : M A) (k : A -> Handling) : Handling :=
  fun w =>
    match m w with
    | (inl e, w') => (Failure e, w')
    | (inr a, w') => k a w'
    end.

(** A value the framework must obtain from the request before going on. *)
Definition need {A} (o : option A) (e : FrameworkError) (k : A -> Handling)
  : Handling :=
  fun w =>
    match o with
    | Some a => k a w
    | None => (Rejected e, w)
    end.

Definition respond (c : Content) : Handling := fun w => (Success c, w).

Section Dispatch.

(** The framework's conversion of a path segment to an [int]. *)
Variable int_validator : string -> option Z.

(** For a route that declares a body the body is decoded first.  Then
    dependencies are solved, then the handler's own parameters are
    validated, then the handler runs.  A route without a body parameter
    does not read the body. *)
Definition call (e : Endpoint) (params : list (string * string))
    (r : Request) : Handling :=
  match e with
  | NoParams f => and_then f respond
  | BodyParam dep f =>
      need (match body r with
            | Undecodable => None
            | Decoded fields => Some fields
            end) BodyDecodeError (fun fields =>
      need (bearer r) NotAuthenticated (fun c =>
      and_then (dep c) (fun token =>
      need (match fields with
            | Some (username, email) => UserCreate.validate username email
            | None => None
            end) RequestValidationError (fun user =>
      and_then (f user token) (fun u => respond (Model u))))))
  | IntPathParam name dep f =>
      need (bearer r) NotAuthenticated (fun c =>
      and_then (dep c) (fun token =>
      need (match lookup_param name params with
            | Some seg => int_validator seg
            | None => None
            end) RequestValidationError (fun user_id =>
      and_then (f user_id token) (fun u => respond (Model u)))))
  | FrameworkPage page => fun w => (Documentation page, w)
  end.

Definition handle (a : FastAPI) (r : Request) : Handling :=
  fun w =>
    match find_route (routes a) false r with
    | inl e => (Rejected e, w)
    | inr (rt, params) => call (endpoint rt) params r w
    end.

(** Requests served one after the other, each in the world the previous
    one left. *)
Fixpoint serve (a : FastAPI) (rs : list Request) (w : World)
  : list Response * World :=
  match rs with
  | [] => ([], w)
  | r :: rs' =>
      let (resp, w') := handle a r w in
      let (resps, w'') := serve a rs' w' in
      (resp :: resps, w'')
  end.

End Dispatch.

(** ** The application object of the module *)

(** [app = FastAPI(...)], lines 15-21, before any route of the module is
    registered: the constructor has already set up the framework's own
    pages for [docs_url="/docs"] and [redoc_url="/redoc"]. *)
Definition app_created : FastAPI :=
  setup (mkFastAPI "DevHub API" "Secure FastAPI application example" "1.0.0"
                   (Some "/docs") (Some "/redoc") []).

(** The four decorated definitions, lines 58-95, in order. *)
Definition register_routes (a : FastAPI) : FastAPI :=
  app_get "/users/{user_id}" "get_user"
          (IntPathParam "user_id" verify_token get_user)
    (app_post "/users" "create_user" (BodyParam verify_token create_user)
      (app_get "/health" "health_check" (NoParams health_check)
        (app_get "/" "root" (NoParams root) a))).

Definition app : FastAPI := register_routes app_created.

(** A conversion for plain decimal numerals, with an optional minus sign,
    used for the instances below.  Python's [int] reads more spellings (a
    plus sign, blanks around, underscores); on the numerals read here it
    gives the same value. *)
Fixpoint digits (acc : Z) (s : string) : option Z :=
  match s with
  | EmptyString => Some acc
  | String c s' =>
      let n := nat_of_ascii c in
      if ((48 <=? n) && (n <=? 57))%nat
      then digits (10 * acc + Z.of_nat (n - 48)) s'
      else None
  end.

Definition decimal (s : string) : option Z :=
  match s with
  | EmptyString => None
  | String c s' =>
      if Ascii.eqb c "-"
      then match s' with
           | EmptyString => None
           | _ => option_map Z.opp (digits 0 s')
           end
      else digits 0 s
  end.

(* ================================================================== *)
(** * Predicates used in the statements *)

(** Every character of [s] belongs to [cs]. *)
Fixpoint all_in (cs : re.charset) (s : string) : bool :=
  match s with
  | EmptyString => true
  | String c s' => re.mem c cs && all_in cs s'
  end.

(** A non-empty text without any [@]. *)
Definition word (s : string) : Prop :=
  s <> EmptyString /\ all_in (re.NoneOf ["@"%char]) s = true.

(** [local@domain.tld]: three words around one [@] and a dot after it. *)
Definition email_shape (s : string) : Prop :=
  exists a b c,
    s = a ++ String "@" (b ++ String "." c) /\ word a /\ word b /\ word c.

(** How many times the character [c] occurs in [s]. *)
Fixpoint count_char (c : ascii) (s : string) : nat :=
  match s with
  | EmptyString => 0%nat
  | String d s' => ((if Ascii.eqb d c then 1 else 0) + count_char c s')%nat
  end.

(** A text that can stand as one path segment: non-empty, without [/]. *)
Definition segment (s : string) : Prop :=
  s <> EmptyString /\ all_in (re.NoneOf ["/"%char]) s = true.

(** The result of a coroutine does not depend on the world it starts in, and
    the records it appends do not either. *)
Definition world_independent {A} (m : M A) : Prop :=
  forall w : World, m w = (fst (m []), (w ++ snd (m []))%list).

(** The same for the handling of a request. *)
Definition oblivious (h : Handling) : Prop :=
  forall w : World, h w = (fst (h []), (w ++ snd (h []))%list).

(** An endpoint all of whose coroutines are world-independent. *)
Definition endpoint_independent (e : Endpoint) : Prop :=
  match e with
  | NoParams f => world_independent f
  | BodyParam dep f =>
      (forall c, world_independent (dep c))
      /\ (forall user token, world_independent (f user token))
  | IntPathParam _ dep f =>
      (forall c, world_independent (dep c))
      /\ (forall user_id token, world_independent (f user_id token))
  | FrameworkPage _ => True
  end.

(** The route of [get_user], as [register_routes] builds it. *)
Definition get_user_route : Route :=
  mkRoute [GET] "/users/{user_id}" "get_user"
          (IntPathParam "user_id" verify_token get_user).

(** The route of [create_user], as [register_routes] builds it. *)
Definition create_user_route : Route :=
  mkRoute [POST] "/users" "create_user" (BodyParam verify_token create_user).

(** No handler ever raises: what the handlers would have to satisfy if the
    module had no failure handling of its own. *)
Definition handlers_never_raise : Prop :=
  (forall w e w', root w <> (inl e, w'))
  /\ (forall w e w', health_check w <> (inl e, w'))
  /\ (forall user token w e w', create_user user token w <> (inl e, w'))
  /\ (forall user_id token w e w', get_user user_id token w <> (inl e, w')).

(** Methods, path and handler name of a route. *)
Definition signature (rt : Route) : list Method * string * string :=
  (route_methods rt, route_path rt, route_name rt).




(** The log record [create_user] writes for a user name. *)
Definition creating (username : string) : logging.LogRecord :=
  logging.mkLogRecord logging.INFO ("Creating user: " ++ username).

(* ================================================================== *)
(** * Properties of [verify_token] *)

Lemma str_ne_true (a b : string) : str_ne a b = true <-> a <> b.
Proof.
  unfold str_ne. rewrite negb_true_iff. apply String.eqb_neq.
Qed.

Lemma str_ne_false (a b : string) : str_ne a b = false <-> a = b.
Proof.
  unfold str_ne. rewrite negb_false_iff. apply String.eqb_eq.
Qed.

Lemma verify_token_guard_eq (token : string) :
  verify_token_guard token = simple_guard token.
Proof.
  destruct token as [ | c s ]; reflexivity.
Qed.

Lemma verify_token_eqb (c : HTTPAuthorizationCredentials) (w : World) :
  verify_token c w =
  (if String.eqb (credentials c) "valid-token"
   then inr (credentials c) else inl unauthorized, w).
Proof.
  unfold verify_token.
  rewrite verify_token_guard_eq.
  unfold simple_guard, str_ne.
  destruct (String.eqb (credentials c) "valid-token"); reflexivity.
Qed.

(** C10.  The guard of line 49, [not token or token != "valid-token"], has
    the same value as [token != "valid-token"] on every string: the first
    disjunct holds for the empty string only, where the second holds too. *)
Theorem verify_token_guard_simplifies :
  (forall token : string, verify_token_guard token = simple_guard token)
  /\ (forall token : string, negb (truthy token) = true <-> token = "")
  /\ simple_guard "" = true.
Proof.
  split; [ exact verify_token_guard_eq | split; [ | reflexivity ] ].
  intros [ | c s ]; simpl; split; intros H; try reflexivity; discriminate.
Qed.

(** C1.  [verify_token] raises exactly when the presented token differs from
    ["valid-token"]; what it raises is the [HTTPException] with status 401
    and the header [WWW-Authenticate: Bearer]; on ["valid-token"] it raises
    nothing and returns the token as it was given.  The outcome is decided by
    one string comparison and the log is left alone. *)
Theorem verify_token_spec (c : HTTPAuthorizationCredentials) (w : World) :
  ((exists e w', verify_token c w = (inl e, w'))
     <-> credentials c <> "valid-token")
  /\ (verify_token c w = (inl unauthorized, w)
     <-> credentials c <> "valid-token")
  /\ status_code unauthorized = 401
  /\ headers unauthorized = Some [("WWW-Authenticate", "Bearer")]
  /\ (verify_token c w = (inr (credentials c), w)
     <-> credentials c = "valid-token")
  /\ verify_token c w =
     (if String.eqb (credentials c) "valid-token"
      then inr (credentials c) else inl unauthorized, w).
Proof.
  pose proof (verify_token_eqb c w) as E.
  destruct (String.eqb_spec (credentials c) "valid-token") as [Heq | Hne];
    repeat split; try reflexivity; try assumption; intros H;
    try contradiction; try assumption;
    try (rewrite E in H; discriminate).
  - destruct H as (e & w' & H). rewrite E in H. discriminate.
  - eauto.
Qed.

(* ================================================================== *)
(** * The regular expression of [UserCreate.email] *)

Lemma append_assoc (a b c : string) : (a ++ b) ++ c = a ++ (b ++ c).
Proof.
  induction a as [ | x a IH ]; simpl; [ reflexivity | now rewrite IH ].
Qed.

Lemma append_empty_r (a : string) : a ++ "" = a.
Proof.
  induction a as [ | x a IH ]; simpl; [ reflexivity | now rewrite IH ].
Qed.

Lemma append_nonempty (a b : string) : a <> "" -> a ++ b <> "".
Proof.
  destruct a; [ contradiction | discriminate ].
Qed.

Lemma all_in_app (cs : re.charset) (a b : string) :
  all_in cs (a ++ b) = all_in cs a && all_in cs b.
Proof.
  induction a as [ | x a IH ]; simpl; [ reflexivity | ].
  now rewrite IH, andb_assoc.
Qed.

Lemma mem_NoneOf_single (c d : ascii) :
  re.mem d (re.NoneOf [c]) = true <-> d <> c.
Proof.
  simpl. rewrite orb_false_r, negb_true_iff. apply Ascii.eqb_neq.
Qed.

(** [cs+] followed by [k] succeeds exactly when the text splits into a
    non-empty run of [cs] and a rest that [k] accepts. *)
Lemma many1_true (cs : re.charset) (k : string -> bool) (s : string) :
  re.many1 cs k s = true <->
  exists a rest,
    s = a ++ rest /\ a <> "" /\ all_in cs a = true /\ k rest = true.
Proof.
  induction s as [ | x s IH ]; simpl.
  - split; [ discriminate | ].
    intros (a & rest & H & Hne & _).
    destruct a; [ contradiction | discriminate ].
  - rewrite andb_true_iff, orb_true_iff, IH. split.
    + intros [Hx [(a & rest & -> & Hne & Hall & Hk) | Hk]].
      * exists (String x a), rest. simpl. rewrite Hx, Hall.
        repeat split; auto. discriminate.
      * exists (String x ""), s. simpl. rewrite Hx.
        repeat split; auto. discriminate.
    + intros (a & rest & Heq & Hne & Hall & Hk).
      destruct a as [ | y a ]; [ contradiction | ].
      simpl in Heq. injection Heq as <- ->.
      simpl in Hall. apply andb_true_iff in Hall as [Hx Hall].
      split; [ exact Hx | ].
      destruct a as [ | z a ].
      * right. exact Hk.
      * left. exists (String z a), rest.
        repeat split; auto. discriminate.
Qed.

Lemma one_exactly_true (c : ascii) (items : list re.item) (b : bool)
    (s : string) :
  re.match_here (re.One (re.Exactly c) :: items) b s = true <->
  exists s', s = String c s' /\ re.match_here items false s' = true.
Proof.
  simpl. destruct s as [ | x s ].
  - split; [ discriminate | intros (s' & H & _); discriminate ].
  - rewrite andb_true_iff. split.
    + intros [Hx Hm]. apply Ascii.eqb_eq in Hx. subst x. eauto.
    + intros (s' & H & Hm). injection H as -> ->.
      split; [ apply Ascii.eqb_refl | exact Hm ].
Qed.

Lemma at_eol_true (s : string) :
  re.at_eol s = true <-> s = "" \/ s = String "010" "".
Proof.
  destruct s as [ | x [ | y s ] ]; simpl.
  - split; auto.
  - rewrite Ascii.eqb_eq. split.
    + intros ->. now right.
    + intros [H | H]; [ discriminate | now injection H ].
  - split; [ discriminate | intros [H | H]; discriminate ].
Qed.

(** The language of [[^c]+]: the non-empty texts without [c]. *)
Lemma plus_notchr (c : ascii) (s : string) :
  Lang.matches (Lang.Plus (Lang.NotChr c)) s <->
  s <> "" /\ all_in (re.NoneOf [c]) s = true.
Proof.
  split.
  - intros H. remember (Lang.Plus (Lang.NotChr c)) as r eqn:Er.
    induction H as [ | | | r s H _ | r s1 s2 H1 _ H2 IH2 ];
      try discriminate; injection Er as ->.
    + inversion H as [ | c' d Hd | | | ]; subst. split; [ discriminate | ].
      unfold all_in. rewrite andb_true_r. now apply mem_NoneOf_single.
    + inversion H1 as [ | c' d Hd | | | ]; subst.
      destruct (IH2 eq_refl) as [_ Hall]. split; [ discriminate | ].
      simpl append. cbn [all_in]. rewrite Hall, andb_true_r.
      now apply mem_NoneOf_single.
  - intros [Hne Hall]. induction s as [ | x s IH ]; [ contradiction | ].
    cbn [all_in] in Hall. apply andb_true_iff in Hall as [Hx Hall].
    apply mem_NoneOf_single in Hx.
    destruct s as [ | y s ].
    + apply Lang.m_plus_one. now constructor.
    + change (String x (String y s)) with (String x "" ++ String y s).
      apply Lang.m_plus_more; [ now constructor | ].
      apply IH; [ discriminate | exact Hall ].
Qed.

Lemma matches_cat_inv (r1 r2 : Lang.regex) (s : string) :
  Lang.matches (Lang.Cat r1 r2) s ->
  exists s1 s2, s = s1 ++ s2 /\ Lang.matches r1 s1 /\ Lang.matches r2 s2.
Proof.
  intros H. inversion H; subst. eauto.
Qed.

Lemma matches_chr_inv (c : ascii) (s : string) :
  Lang.matches (Lang.Chr c) s -> s = String c "".
Proof.
  intros H. now inversion H.
Qed.

(** The language of the expression, spelled out. *)
Lemma email_language (s : string) :
  Lang.matches Lang.email s <-> email_shape s.
Proof.
  unfold Lang.email, email_shape, word. split.
  - intros H.
    apply matches_cat_inv in H as (a & s1 & -> & Ha & H).
    apply matches_cat_inv in H as (x & s2 & -> & Hx & H).
    apply matches_cat_inv in H as (b & s3 & -> & Hb & H).
    apply matches_cat_inv in H as (y & c & -> & Hy & Hc).
    apply matches_chr_inv in Hx, Hy. subst x y.
    apply plus_notchr in Ha, Hb, Hc.
    exists a, b, c. simpl. auto.
  - intros (a & b & c & -> & Ha & Hb & Hc).
    apply plus_notchr in Ha, Hb, Hc.
    apply Lang.m_cat; [ exact Ha | ].
    apply (Lang.m_cat (r1 := Lang.Chr "@") (s1 := String "@" ""));
      [ constructor | ].
    apply Lang.m_cat; [ exact Hb | ].
    apply (Lang.m_cat (r1 := Lang.Chr ".") (s1 := String "." ""));
      [ constructor | exact Hc ].
Qed.

Lemma email_compiles :
  re.compile "^[^@]+@[^@]+\.[^@]+$" =
  Some [ re.Bol; re.Many1 (re.NoneOf ["@"%char]); re.One (re.Exactly "@");
         re.Many1 (re.NoneOf ["@"%char]); re.One (re.Exactly ".");
         re.Many1 (re.NoneOf ["@"%char]); re.Eol ].
Proof.
  reflexivity.
Qed.

Lemma match_here_many1 (cs : re.charset) (items : list re.item) (b : bool)
    (s : string) :
  re.match_here (re.Many1 cs :: items) b s =
  re.many1 cs (re.match_here items false) s.
Proof.
  reflexivity.
Qed.

Lemma match_here_eol (b : bool) (s : string) :
  re.match_here [re.Eol] b s = re.at_eol s.
Proof.
  simpl. apply andb_true_r.
Qed.

(** [re.match] with the pattern of line 38 accepts exactly the texts of that
    shape.  The newline that [$] tolerates at the end is itself a character
    of [[^@]], so it adds nothing to the language. *)
Lemma email_match (s : string) :
  re.match_ "^[^@]+@[^@]+\.[^@]+$" s = true <-> email_shape s.
Proof.
  unfold re.match_. rewrite email_compiles.
  change (re.match_here (re.Bol :: ?l) true s) with (re.match_here l true s).
  rewrite match_here_many1, many1_true.
  unfold email_shape, word. split.
  - intros (a & r1 & -> & Ha & Ha' & H).
    apply one_exactly_true in H as (r2 & -> & H).
    rewrite match_here_many1, many1_true in H.
    destruct H as (b & r3 & -> & Hb & Hb' & H).
    apply one_exactly_true in H as (r4 & -> & H).
    rewrite match_here_many1, many1_true in H.
    destruct H as (c & r5 & -> & Hc & Hc' & H).
    rewrite match_here_eol in H. apply at_eol_true in H.
    exists a, b, (c ++ r5). repeat split; auto.
    + now apply append_nonempty.
    + rewrite all_in_app, Hc'. destruct H as [-> | ->]; reflexivity.
  - intros (a & b & c & -> & [Ha Ha'] & [Hb Hb'] & [Hc Hc']).
    exists a, (String "@" (b ++ String "." c)). repeat split; auto.
    apply one_exactly_true. eexists. split; [ reflexivity | ].
    rewrite match_here_many1, many1_true.
    exists b, (String "." c). repeat split; auto.
    apply one_exactly_true. eexists. split; [ reflexivity | ].
    rewrite match_here_many1, many1_true.
    exists c, "". rewrite append_empty_r. repeat split; auto.
Qed.

(* ================================================================== *)
(** * The models *)

Lemma validate_str_username (v : string) :
  validate_str UserCreate.username_field v = true <->
  (3 <= String.length v <= 50)%nat.
Proof.
  unfold validate_str, UserCreate.username_field. cbn -[Nat.leb].
  rewrite andb_true_r, andb_true_iff, !Nat.leb_le. reflexivity.
Qed.

Lemma validate_str_email (v : string) :
  validate_str UserCreate.email_field v = true <-> email_shape v.
Proof.
  unfold validate_str, UserCreate.email_field.
  cbn [min_length max_length regex andb]. apply email_match.
Qed.

Lemma validate_str_bare (v : string) : validate_str bare v = true.
Proof.
  reflexivity.
Qed.

Lemma UserCreate_validate_accepts (username email : string) :
  UserCreate.validate username email = Some (UserCreate.mk username email)
  <-> (3 <= String.length username <= 50)%nat /\ email_shape email.
Proof.
  unfold UserCreate.validate.
  rewrite <- validate_str_username, <- validate_str_email.
  destruct (validate_str UserCreate.username_field username),
           (validate_str UserCreate.email_field email);
    simpl; split; try discriminate; auto; intros [? ?]; discriminate.
Qed.

Lemma UserCreate_validate_refuses (username email : string) :
  UserCreate.validate username email = None
  <-> ~ ((3 <= String.length username <= 50)%nat /\ email_shape email).
Proof.
  rewrite <- UserCreate_validate_accepts. unfold UserCreate.validate.
  destruct (validate_str UserCreate.username_field username
            && validate_str UserCreate.email_field email);
    split; try discriminate; auto; intros H; now elim H.
Qed.

(** C3.  The module declares two models, [UserCreate] and [UserResponse], in
    that order.  [UserCreate] accepts a username and an email exactly when the
    username has between 3 and 50 characters and the email matches
    [^[^@]+@[^@]+\.[^@]+$], and refuses them otherwise; matching is the same
    whether read as Python's [re.match] or as membership of the whole text in
    the language of the expression.  [UserResponse] has three required
    fields, an [int] [id] and the [str] fields [username] and [email], with
    no further constraint. *)
Theorem schemas_spec :
  map class_name models = ["UserCreate"; "UserResponse"]
  /\ (forall username email : string,
        UserCreate.validate username email
          = Some (UserCreate.mk username email)
        <-> (3 <= String.length username <= 50)%nat
            /\ Lang.matches Lang.email email)
  /\ (forall username email : string,
        UserCreate.validate username email = None
        <-> ~ ((3 <= String.length username <= 50)%nat
               /\ Lang.matches Lang.email email))
  /\ (forall email : string,
        re.match_ "^[^@]+@[^@]+\.[^@]+$" email = true
        <-> Lang.matches Lang.email email)
  /\ fields UserResponse.class
       = [ mkModelField "id" Tint true bare;
           mkModelField "username" Tstr true bare;
           mkModelField "email" Tstr true bare ]
  /\ (forall v : string, validate_str bare v = true).
Proof.
  split; [ reflexivity | ].
  split; [ intros u e; rewrite email_language;
           apply UserCreate_validate_accepts | ].
  split; [ intros u e; rewrite email_language;
           apply UserCreate_validate_refuses | ].
  split; [ intros e; rewrite email_language; apply email_match | ].
  split; [ reflexivity | exact validate_str_bare ].
Qed.

(* ================================================================== *)
(** * The handlers, one by one *)

Lemma root_runs (w : World) :
  root w = (inr (Dict [("message", "Welcome to DevHub API")]), w).
Proof.
  reflexivity.
Qed.

Lemma health_check_runs (w : World) :
  health_check w
  = (inr (Dict [("status", "healthy"); ("service", "devhub-api")]), w).
Proof.
  reflexivity.
Qed.

Lemma create_user_runs (user : UserCreate.t) (token : string) (w : World) :
  create_user user token w
  = (inr (UserResponse.mk 1 (UserCreate.username user)
                          (UserCreate.email user)),
     (w ++ [creating (UserCreate.username user)])%list).
Proof.
  reflexivity.
Qed.

Lemma get_user_runs (user_id : Z) (token : string) (w : World) :
  get_user user_id token w
  = (if user_id <=? 0
     then inl invalid_user_id
     else inr (UserResponse.mk user_id "john_doe" "john@example.com"), w).
Proof.
  unfold get_user. destruct (user_id <=? 0); reflexivity.
Qed.

Lemma verify_token_valid (sch : string) (w : World) :
  verify_token (mkCredentials sch "valid-token") w = (inr "valid-token", w).
Proof.
  reflexivity.
Qed.


(* ================================================================== *)
(** * Routing *)

Lemma split_on_segment (seg : string) :
  all_in (re.NoneOf ["/"%char]) seg = true -> split_on "/" seg = [seg].
Proof.
  induction seg as [ | x seg IH ]; [ reflexivity | ].
  cbn [all_in]. rewrite andb_true_iff. intros [Hx Hall].
  apply mem_NoneOf_single, Ascii.eqb_neq in Hx.
  cbn [split_on]. rewrite Hx, (IH Hall). reflexivity.
Qed.

Lemma split_on_users (seg : string) :
  segment seg -> split_on "/" ("/users/" ++ seg) = [""; "users"; seg].
Proof.
  intros [_ Hall]. cbn. now rewrite (split_on_segment _ Hall).
Qed.

Lemma match_path_users (template seg : string) :
  segment seg ->
  match_path template ("/users/" ++ seg)
  = match_segments (split_on "/" template) [""; "users"; seg].
Proof.
  intros H. unfold match_path. now rewrite (split_on_users H).
Qed.

Lemma find_route_get_user (seg : string)
    (b : option HTTPAuthorizationCredentials) (body : Body) :
  segment seg ->
  find_route (routes app) false (mkRequest GET ("/users/" ++ seg) b body)
  = inr (get_user_route, [("user_id", seg)]).
Proof.
  intros H. cbn -[match_path append].
  rewrite !(match_path_users _ H).
  destruct H as [Hne _]. destruct seg as [ | x seg ]; [ contradiction | ].
  reflexivity.
Qed.

Lemma find_route_create_user
    (b : option HTTPAuthorizationCredentials) (body : Body) :
  find_route (routes app) false (mkRequest POST "/users" b body)
  = inr (create_user_route, []).
Proof.
  reflexivity.
Qed.

Lemma find_route_In (rs : list Route) (partial : bool) (r : Request)
    (rt : Route) (params : list (string * string)) :
  find_route rs partial r = inr (rt, params) -> In rt rs.
Proof.
  revert partial. induction rs as [ | x rs IH ]; intros partial; cbn.
  - discriminate.
  - destruct (match_path (route_path x) (path r)).
    + destruct (existsb (Method_eqb (method r)) (route_methods x)).
      * intros H. injection H as -> _. now left.
      * intros H. right. eapply IH, H.
    + intros H. right. eapply IH, H.
Qed.

Lemma Method_eqb_eq (a b : Method) : Method_eqb a b = true -> a = b.
Proof.
  destruct a, b; cbn; intros H; try discriminate; reflexivity.
Qed.

Lemma find_route_method (rs : list Route) (partial : bool) (r : Request)
    (rt : Route) (params : list (string * string)) :
  find_route rs partial r = inr (rt, params) ->
  In (method r) (route_methods rt).
Proof.
  revert partial. induction rs as [ | x rs IH ]; intros partial; cbn.
  - discriminate.
  - destruct (match_path (route_path x) (path r)); [ | apply IH ].
    destruct (existsb (Method_eqb (method r)) (route_methods x)) eqn:Ex;
      [ | apply IH ].
    intros H. injection H as <- _.
    apply existsb_exists in Ex as (m & Hin & Hm).
    apply Method_eqb_eq in Hm. now subst m.
Qed.

(** C5, as stated, fails: the application object of lines 15-21 comes out of
    its constructor with four routes of the framework's own, for the schema
    and for the pages under [docs_url] and [redoc_url]; with the four of the
    module it holds eight, and [GET /docs] is answered. *)
Lemma documentation_routes_registered :
  map signature (routes app_created)
  = [ ([GET; HEAD], "/openapi.json", "openapi");
      ([GET; HEAD], "/docs", "swagger_ui_html");
      ([GET; HEAD], "/docs/oauth2-redirect", "swagger_ui_redirect");
      ([GET; HEAD], "/redoc", "redoc_html") ]
  /\ length (routes app) = 8%nat
  /\ map (fun rt => (route_methods rt, route_path rt)) (routes app)
     <> [ ([GET], "/"); ([GET], "/health"); ([POST], "/users");
          ([GET], "/users/{user_id}") ]
  /\ handle decimal app (mkRequest GET "/docs" None (Decoded None)) []
     = (Documentation "swagger_ui_html", []).
Proof.
  split; [ reflexivity | ].
  split; [ reflexivity | ].
  split; [ discriminate | reflexivity ].
Qed.

(** C5, amended.  The decorators of the module add four routes to the
    application object, in this order and whatever it held before: [GET /]
    for [root], [GET /health] for [health_check], [POST /users] for
    [create_user] and [GET /users/{user_id}] for [get_user], and no others.
    The application object holds them after the four routes its constructor
    has set up for the schema and the documentation pages, eight in all. *)
Theorem four_routes_registered (a : FastAPI) :
  routes (register_routes a)
  = (routes a
     ++ [ mkRoute [GET] "/" "root" (NoParams root);
          mkRoute [GET] "/health" "health_check" (NoParams health_check);
          mkRoute [POST] "/users" "create_user"
                  (BodyParam verify_token create_user);
          mkRoute [GET] "/users/{user_id}" "get_user"
                  (IntPathParam "user_id" verify_token get_user) ])%list
  /\ map signature (routes app)
     = [ ([GET; HEAD], "/openapi.json", "openapi");
         ([GET; HEAD], "/docs", "swagger_ui_html");
         ([GET; HEAD], "/docs/oauth2-redirect", "swagger_ui_redirect");
         ([GET; HEAD], "/redoc", "redoc_html");
         ([GET], "/", "root"); ([GET], "/health", "health_check");
         ([POST], "/users", "create_user");
         ([GET], "/users/{user_id}", "get_user") ]
  /\ filter (fun rt => match endpoint rt with
                       | FrameworkPage _ => false
                       | _ => true
                       end) (routes app)
     = [ mkRoute [GET] "/" "root" (NoParams root);
         mkRoute [GET] "/health" "health_check" (NoParams health_check);
         mkRoute [POST] "/users" "create_user"
                 (BodyParam verify_token create_user);
         mkRoute [GET] "/users/{user_id}" "get_user"
                 (IntPathParam "user_id" verify_token get_user) ].
Proof.
  split; [ | split; reflexivity ].
  unfold register_routes, app_get, app_post, add_api_route.
  cbn [routes]. rewrite <- !app_assoc. reflexivity.
Qed.

(* ================================================================== *)
(** * Dispatch *)

Section DispatchFacts.

Variable int_validator : string -> option Z.

Lemma handle_root (b : option HTTPAuthorizationCredentials)
    (body : Body) (w : World) :
  handle int_validator app (mkRequest GET "/" b body) w
  = (Success (Dict [("message", "Welcome to DevHub API")]), w).
Proof.
  reflexivity.
Qed.

Lemma handle_health (b : option HTTPAuthorizationCredentials)
    (body : Body) (w : World) :
  handle int_validator app (mkRequest GET "/health" b body) w
  = (Success (Dict [("status", "healthy"); ("service", "devhub-api")]), w).
Proof.
  reflexivity.
Qed.





Lemma handle_get_user (sch seg : string) (user_id : Z)
    (body : Body) (w : World) :
  segment seg ->
  int_validator seg = Some user_id ->
  handle int_validator app
         (mkRequest GET ("/users/" ++ seg)
                    (Some (mkCredentials sch "valid-token")) body) w
  = (if user_id <=? 0
     then Failure invalid_user_id
     else Success
            (Model (UserResponse.mk user_id "john_doe" "john@example.com")),
     w).
Proof.
  intros Hs Hi. unfold handle. rewrite (find_route_get_user _ _ Hs).
  unfold get_user_route, call, need, and_then, respond.
  cbn [endpoint bearer lookup_param]. rewrite verify_token_valid.
  rewrite String.eqb_refl, Hi, get_user_runs.
  destruct (user_id <=? 0); reflexivity.
Qed.

Lemma handle_create_user (sch username email : string) (w : World) :
  UserCreate.validate username email = Some (UserCreate.mk username email) ->
  handle int_validator app
         (mkRequest POST "/users" (Some (mkCredentials sch "valid-token"))
                    (Decoded (Some (username, email)))) w
  = (Success (Model (UserResponse.mk 1 username email)),
     (w ++ [creating username])%list).
Proof.
  intros Hv. unfold handle. rewrite find_route_create_user.
  unfold create_user_route, call, need, and_then, respond.
  cbn [endpoint bearer body]. rewrite verify_token_valid, Hv.
  rewrite create_user_runs. reflexivity.
Qed.

End DispatchFacts.

(* ================================================================== *)
(** * World independence *)

Lemma wi_ret {A} (a : A) : world_independent (ret a).
Proof.
  intros w. cbn. now rewrite app_nil_r.
Qed.

Lemma wi_raise {A} (e : HTTPException) : world_independent (@raise A e).
Proof.
  intros w. cbn. now rewrite app_nil_r.
Qed.

Lemma wi_logger_info (message : string) :
  world_independent (logger_info message).
Proof.
  intros w. reflexivity.
Qed.

Lemma wi_bind {A B} (m : M A) (k : A -> M B) :
  world_independent m -> (forall a, world_independent (k a)) ->
  world_independent (bind m k).
Proof.
  intros Hm Hk w. unfold bind. rewrite (Hm w).
  destruct (m []) as [[e | a] l]; cbn [fst snd].
  - reflexivity.
  - rewrite (Hk a (w ++ l)%list), (Hk a l). cbn [fst snd].
    now rewrite app_assoc.
Qed.

Lemma wi_verify_token (c : HTTPAuthorizationCredentials) :
  world_independent (verify_token c).
Proof.
  intros w. rewrite !verify_token_eqb. cbn. now rewrite app_nil_r.
Qed.

Lemma wi_root : world_independent root.
Proof.
  apply wi_ret.
Qed.

Lemma wi_health_check : world_independent health_check.
Proof.
  apply wi_ret.
Qed.

Lemma wi_create_user (user : UserCreate.t) (token : string) :
  world_independent (create_user user token).
Proof.
  unfold create_user. apply wi_bind.
  - apply wi_logger_info.
  - intros _. apply wi_ret.
Qed.

Lemma wi_get_user (user_id : Z) (token : string) :
  world_independent (get_user user_id token).
Proof.
  unfold get_user. destruct (user_id <=? 0); [ apply wi_raise | apply wi_ret ].
Qed.

Lemma oblivious_respond (c : Content) : oblivious (respond c).
Proof.
  intros w. cbn. now rewrite app_nil_r.
Qed.

Lemma oblivious_need {A} (o : option A) (e : FrameworkError)
    (k : A -> Handling) :
  (forall a, oblivious (k a)) -> oblivious (need o e k).
Proof.
  intros Hk w. unfold need. destruct o as [a | ].
  - apply Hk.
  - cbn. now rewrite app_nil_r.
Qed.

Lemma oblivious_and_then {A} (m : M A) (k : A -> Handling) :
  world_independent m -> (forall a, oblivious (k a)) ->
  oblivious (and_then m k).
Proof.
  intros Hm Hk w. unfold and_then. rewrite (Hm w).
  destruct (m []) as [[e | a] l]; cbn [fst snd].
  - reflexivity.
  - rewrite (Hk a (w ++ l)%list), (Hk a l). cbn [fst snd].
    now rewrite app_assoc.
Qed.

Lemma oblivious_call (int_validator : string -> option Z) (e : Endpoint)
    (params : list (string * string)) (r : Request) :
  endpoint_independent e -> oblivious (call int_validator e params r).
Proof.
  destruct e as [f | dep f | name dep f | page];
    cbn [endpoint_independent call].
  - intros Hf. apply oblivious_and_then; [ exact Hf | ].
    apply oblivious_respond.
  - intros [Hd Hf]. apply oblivious_need. intros fields.
    apply oblivious_need. intros c.
    apply oblivious_and_then; [ apply Hd | ]. intros token.
    apply oblivious_need. intros user.
    apply oblivious_and_then; [ apply Hf | ]. intros u.
    apply oblivious_respond.
  - intros [Hd Hf]. apply oblivious_need. intros c.
    apply oblivious_and_then; [ apply Hd | ]. intros token.
    apply oblivious_need. intros user_id.
    apply oblivious_and_then; [ apply Hf | ]. intros u.
    apply oblivious_respond.
  - intros _ w. cbn. now rewrite app_nil_r.
Qed.

Lemma app_endpoints_independent (rt : Route) :
  In rt (routes app) -> endpoint_independent (endpoint rt).
Proof.
  cbn. intros [<- | [<- | [<- | [<- | [<- | [<- | [<- | [<- | []]]]]]]]]; cbn.
  - exact I.
  - exact I.
  - exact I.
  - exact I.
  - apply wi_root.
  - apply wi_health_check.
  - split; [ apply wi_verify_token | apply wi_create_user ].
  - split; [ apply wi_verify_token | apply wi_get_user ].
Qed.

Lemma oblivious_handle (int_validator : string -> option Z) (r : Request) :
  oblivious (handle int_validator app r).
Proof.
  intros w. unfold handle.
  destruct (find_route (routes app) false r) as [e | [rt params]] eqn:E.
  - cbn. now rewrite app_nil_r.
  - apply oblivious_call.
    apply app_endpoints_independent. eapply find_route_In, E.
Qed.

Lemma oblivious_fst (h : Handling) (w1 w2 : World) :
  oblivious h -> fst (h w1) = fst (h w2).
Proof.
  intros H. now rewrite (H w1), (H w2).
Qed.

(* ================================================================== *)
(** * The claims about requests *)

(** C7.  [GET /] is answered with [{"message": "Welcome to DevHub API"}] and
    [GET /health] with [{"status": "healthy", "service": "devhub-api"}],
    whatever credentials and body the request carries, whatever the log
    holds, and whatever requests were served before. *)
Theorem root_and_health_constant (int_validator : string -> option Z)
    (b : option HTTPAuthorizationCredentials)
    (body : Body) (history : list Request) (w : World) :
  handle int_validator app (mkRequest GET "/" b body) w
  = (Success (Dict [("message", "Welcome to DevHub API")]), w)
  /\ handle int_validator app (mkRequest GET "/health" b body) w
     = (Success (Dict [("status", "healthy"); ("service", "devhub-api")]), w)
  /\ fst (handle int_validator app (mkRequest GET "/" b body)
                 (snd (serve int_validator app history w)))
     = Success (Dict [("message", "Welcome to DevHub API")])
  /\ fst (handle int_validator app (mkRequest GET "/health" b body)
                 (snd (serve int_validator app history w)))
     = Success (Dict [("status", "healthy"); ("service", "devhub-api")]).
Proof.
  split; [ apply handle_root | ].
  split; [ apply handle_health | ].
  split; [ now rewrite handle_root | now rewrite handle_health ].
Qed.

(** C6.  No response depends on the world a request runs in: a request gets
    the same response in any two worlds, hence after any sequence of earlier
    requests, and the only trace a request leaves is what it appends to the
    log.  The same holds for each handler and for the dependency on their
    own. *)
Theorem handlers_deterministic (int_validator : string -> option Z) :
  (forall (r : Request) (w1 w2 : World),
      fst (handle int_validator app r w1) = fst (handle int_validator app r w2))
  /\ (forall (r : Request) (history : list Request) (w : World),
         fst (handle int_validator app r
                     (snd (serve int_validator app history w)))
         = fst (handle int_validator app r []))
  /\ (forall (r : Request) (w : World),
         snd (handle int_validator app r w)
         = (w ++ snd (handle int_validator app r []))%list)
  /\ world_independent root
  /\ world_independent health_check
  /\ (forall user token, world_independent (create_user user token))
  /\ (forall user_id token, world_independent (get_user user_id token))
  /\ (forall c, world_independent (verify_token c)).
Proof.
  split; [ | split; [ | split ] ].
  - intros r w1 w2. apply oblivious_fst, oblivious_handle.
  - intros r history w. apply oblivious_fst, oblivious_handle.
  - intros r w. now rewrite (oblivious_handle int_validator r w).
  - split; [ apply wi_root | ].
    split; [ apply wi_health_check | ].
    split; [ apply wi_create_user | ].
    split; [ apply wi_get_user | apply wi_verify_token ].
Qed.



(** C8.  [get_user] raises exactly when [user_id <= 0], and then the
    [HTTPException] with status 400 and detail ["Invalid user ID"]; for
    [user_id > 0] it returns [UserResponse(id=user_id, username="john_doe",
    email="john@example.com")].  The same is the answer to
    [GET /users/{user_id}] with the token ["valid-token"]. *)
Theorem get_user_spec (int_validator : string -> option Z) (user_id : Z)
    (token sch seg : string) (body : Body) (w : World)
    (Hseg : segment seg) (Hint : int_validator seg = Some user_id) :
  ((exists e w', get_user user_id token w = (inl e, w')) <-> user_id <= 0)
  /\ (get_user user_id token w = (inl invalid_user_id, w) <-> user_id <= 0)
  /\ status_code invalid_user_id = 400
  /\ detail invalid_user_id = "Invalid user ID"
  /\ (get_user user_id token w
      = (inr (UserResponse.mk user_id "john_doe" "john@example.com"), w)
      <-> 0 < user_id)
  /\ (handle int_validator app
             (mkRequest GET ("/users/" ++ seg)
                        (Some (mkCredentials sch "valid-token")) body) w
      = (Failure invalid_user_id, w)
      <-> user_id <= 0)
  /\ (handle int_validator app
             (mkRequest GET ("/users/" ++ seg)
                        (Some (mkCredentials sch "valid-token")) body) w
      = (Success
           (Model (UserResponse.mk user_id "john_doe" "john@example.com")),
         w)
      <-> 0 < user_id).
Proof.
  rewrite (handle_get_user int_validator sch body w Hseg Hint).
  rewrite get_user_runs.
  destruct (Z.leb_spec user_id 0) as [Hle | Hgt];
    repeat split; try reflexivity; try lia; intros H;
    try discriminate; try lia.
  - eauto.
  - destruct H as (e & w' & H). discriminate.
Qed.

(** C9.  For a username and an email that [UserCreate] accepts,
    [POST /users] with the token ["valid-token"] is answered with the
    [UserResponse] whose [id] is 1 and whose [username] and [email] are the
    ones received; [create_user] returns that value for any [UserCreate] and
    any token, after logging the user name. *)
Theorem create_user_spec (int_validator : string -> option Z)
    (username email token sch : string) (user : UserCreate.t) (w : World)
    (Hvalid : UserCreate.validate username email = Some user) :
  handle int_validator app
         (mkRequest POST "/users" (Some (mkCredentials sch "valid-token"))
                    (Decoded (Some (username, email)))) w
  = (Success (Model (UserResponse.mk 1 username email)),
     (w ++ [creating username])%list)
  /\ create_user user token w
     = (inr (UserResponse.mk 1 username email),
        (w ++ [creating username])%list)
  /\ UserCreate.username user = username
  /\ UserCreate.email user = email
  /\ (forall (u : UserCreate.t) (t : string) (w0 : World),
         exists w',
           create_user u t w0
           = (inr (UserResponse.mk 1 (UserCreate.username u)
                                   (UserCreate.email u)), w')).
Proof.
  assert (user = UserCreate.mk username email) as ->.
  { unfold UserCreate.validate in Hvalid.
    destruct (validate_str UserCreate.username_field username
              && validate_str UserCreate.email_field email);
      [ now injection Hvalid | discriminate ]. }
  split; [ now apply handle_create_user | ].
  split; [ apply create_user_runs | ].
  split; [ reflexivity | ].
  split; [ reflexivity | ].
  intros u t w0. eexists. apply create_user_runs.
Qed.

(** An [HTTPException] reaches the client only from [verify_token], for a
    token it refuses, or from [get_user], after [verify_token] has accepted
    the token; either way the log is as before. *)
Lemma handle_failure (int_validator : string -> option Z) (r : Request)
    (w w' : World) (e : HTTPException) :
  handle int_validator app r w = (Failure e, w') ->
  w' = w
  /\ ((e = unauthorized
       /\ exists c, bearer r = Some c /\ credentials c <> "valid-token")
      \/ (e = invalid_user_id
          /\ method r = GET
          /\ exists c, bearer r = Some c /\ credentials c = "valid-token")).
Proof.
  unfold handle.
  destruct (find_route (routes app) false r) as [err | [rt params]] eqn:E;
    [ discriminate | ].
  pose proof (find_route_method _ _ _ E) as Hm.
  apply find_route_In in E. cbn in E.
  destruct E as [<- | [<- | [<- | [<- | [<- | [<- | [<- | [<- | []]]]]]]]];
    cbn [endpoint call route_methods] in *;
    unfold need, and_then, respond; try (cbn; discriminate).
  - destruct (body r) as [ | fields ]; [ discriminate | ].
    destruct (bearer r) as [c | ]; [ | discriminate ].
    rewrite verify_token_eqb.
    destruct (String.eqb_spec (credentials c) "valid-token") as [Hc | Hc].
    + destruct (match fields with
                | Some (username, email) => UserCreate.validate username email
                | None => None
                end); [ rewrite create_user_runs | ]; discriminate.
    + intros H. injection H as <- <-. split; [ reflexivity | ].
      left. eauto.
  - destruct (bearer r) as [c | ]; [ | discriminate ].
    rewrite verify_token_eqb.
    destruct (String.eqb_spec (credentials c) "valid-token") as [Hc | Hc].
    + destruct (match lookup_param "user_id" params with
                | Some seg => int_validator seg
                | None => None
                end) as [user_id | ]; [ | discriminate ].
      rewrite get_user_runs. destruct (user_id <=? 0); [ | discriminate ].
      intros H. injection H as <- <-. split; [ reflexivity | ].
      right. split; [ reflexivity | ].
      split; [ destruct Hm as [Hm | []]; now symmetry | eauto ].
    + intros H. injection H as <- <-. split; [ reflexivity | ].
      left. eauto.
Qed.

(** C2, as stated, fails: with the token accepted by [verify_token],
    [get_user] raises an [HTTPException] that the module itself builds. *)
Lemma get_user_raises_after_dependencies :
  verify_token (mkCredentials "Bearer" "valid-token") []
  = (inr "valid-token", [])
  /\ get_user 0 "valid-token" [] = (inl invalid_user_id, [])
  /\ status_code invalid_user_id = 400
  /\ handle decimal app
            (mkRequest GET "/users/0"
                       (Some (mkCredentials "Bearer" "valid-token"))
                       (Decoded None)) []
     = (Failure invalid_user_id, [])
  /\ ~ handlers_never_raise.
Proof.
  split; [ reflexivity | ].
  split; [ reflexivity | ].
  split; [ reflexivity | ].
  split; [ reflexivity | ].
  intros (_ & _ & _ & H).
  exact (H 0 "valid-token" [] invalid_user_id [] eq_refl).
Qed.

(** C2, amended.  [root], [health_check] and [create_user] never raise.
    [get_user] raises exactly when [user_id <= 0], and then the
    [HTTPException] 400 "Invalid user ID" of lines 85-88.  For every request,
    an [HTTPException] built by the module is the 401 of [verify_token] or,
    once [verify_token] has accepted the token, this 400 of [get_user]. *)
Theorem only_get_user_raises :
  (forall w : World,
      root w = (inr (Dict [("message", "Welcome to DevHub API")]), w))
  /\ (forall w : World,
         health_check w
         = (inr (Dict [("status", "healthy"); ("service", "devhub-api")]), w))
  /\ (forall (user : UserCreate.t) (token : string) (w : World),
         create_user user token w
         = (inr (UserResponse.mk 1 (UserCreate.username user)
                                 (UserCreate.email user)),
            (w ++ [creating (UserCreate.username user)])%list))
  /\ (forall (user_id : Z) (token : string) (w : World),
         (exists e w', get_user user_id token w = (inl e, w'))
         <-> user_id <= 0)
  /\ (forall (user_id : Z) (token : string) (w : World),
         get_user user_id token w
         = (if user_id <=? 0
            then inl invalid_user_id
            else inr (UserResponse.mk user_id "john_doe" "john@example.com"),
            w))
  /\ (forall (int_validator : string -> option Z) (r : Request)
             (w w' : World) (e : HTTPException),
         handle int_validator app r w = (Failure e, w') ->
         w' = w
         /\ ((e = unauthorized
              /\ exists c, bearer r = Some c
                           /\ credentials c <> "valid-token")
             \/ (e = invalid_user_id
                 /\ method r = GET
                 /\ exists c, bearer r = Some c
                              /\ credentials c = "valid-token"))).
Proof.
  split; [ exact root_runs | ].
  split; [ exact health_check_runs | ].
  split; [ exact create_user_runs | ].
  split; [ | split; [ exact get_user_runs | exact handle_failure ] ].
  intros user_id token w. rewrite get_user_runs.
  destruct (Z.leb_spec user_id 0) as [Hle | Hgt]; split; intros H.
  - exact Hle.
  - eauto.
  - destruct H as (e & w' & H). discriminate.
  - lia.
Qed.

(* ================================================================== *)
(** * Instances *)


(** [get_user_spec] at [GET /users/7]. *)
Lemma get_user_spec_witness :
  segment "7"
  /\ decimal "7" = Some 7
  /\ get_user 7 "valid-token" []
     = (inr (UserResponse.mk 7 "john_doe" "john@example.com"), [])
  /\ handle decimal app
            (mkRequest GET "/users/7"
                       (Some (mkCredentials "Bearer" "valid-token"))
                       (Decoded None)) []
     = (Success (Model (UserResponse.mk 7 "john_doe" "john@example.com")), []).
Proof.
  assert (Hs : segment "7") by (split; [ discriminate | reflexivity ]).
  assert (Hi : decimal "7" = Some 7) by reflexivity.
  split; [ exact Hs | ]. split; [ exact Hi | ].
  pose proof (@get_user_spec decimal 7 "valid-token" "Bearer" "7" (Decoded None) []
                             Hs Hi)
    as (_ & _ & _ & _ & Hret & _ & Hresp).
  split; [ apply Hret | apply Hresp ]; lia.
Defined.

(** [create_user_spec] at the user [alice]. *)
Lemma create_user_spec_witness :
  UserCreate.validate "alice" "alice@example.com"
  = Some (UserCreate.mk "alice" "alice@example.com")
  /\ handle decimal app
            (mkRequest POST "/users"
                       (Some (mkCredentials "Bearer" "valid-token"))
                       (Decoded (Some ("alice", "alice@example.com")))) []
     = (Success (Model (UserResponse.mk 1 "alice" "alice@example.com")),
        [creating "alice"]).
Proof.
  assert (Hv : UserCreate.validate "alice" "alice@example.com"
               = Some (UserCreate.mk "alice" "alice@example.com"))
    by reflexivity.
  split; [ exact Hv | ].
  exact (proj1 (@create_user_spec decimal "alice" "alice@example.com"
                                  "valid-token" "Bearer" _ [] Hv)).
Defined.

(* ================================================================== *)
(** * What the email pattern lets through *)

Lemma count_char_app (c : ascii) (a b : string) :
  count_char c (a ++ b) = (count_char c a + count_char c b)%nat.
Proof.
  induction a as [ | x a IH ]; cbn [append count_char]; [ reflexivity | ].
  rewrite IH. lia.
Qed.

Lemma all_in_NoneOf_count (c : ascii) (s : string) :
  all_in (re.NoneOf [c]) s = true <-> count_char c s = 0%nat.
Proof.
  induction s as [ | x s IH ]; cbn [all_in count_char].
  - split; reflexivity.
  - rewrite andb_true_iff, IH, mem_NoneOf_single.
    destruct (Ascii.eqb_spec x c) as [-> | Hne]; split.
    + intros [H _]. now elim H.
    + discriminate.
    + intros [_ H]. exact H.
    + intros H. split; [ exact Hne | exact H ].
Qed.

Lemma length_app (a b : string) :
  String.length (a ++ b) = (String.length a + String.length b)%nat.
Proof.
  induction a as [ | x a IH ]; cbn [append String.length];
    [ reflexivity | now rewrite IH ].
Qed.

Lemma word_length (s : string) : word s -> (1 <= String.length s)%nat.
Proof.
  intros [Hne _]. destruct s; [ contradiction | cbn; lia ].
Qed.

Lemma email_shape_one_at (s : string) :
  email_shape s -> count_char "@" s = 1%nat.
Proof.
  intros (a & b & c & -> & [_ Ha] & [_ Hb] & [_ Hc]).
  apply all_in_NoneOf_count in Ha, Hb, Hc.
  rewrite count_char_app. cbn [count_char].
  rewrite count_char_app. cbn [count_char].
  rewrite Ha, Hb, Hc. reflexivity.
Qed.

Lemma email_shape_length (s : string) :
  email_shape s -> (5 <= String.length s)%nat.
Proof.
  intros (a & b & c & -> & Ha & Hb & Hc).
  apply word_length in Ha, Hb, Hc.
  rewrite length_app. cbn [String.length].
  rewrite length_app. cbn [String.length]. lia.
Qed.

Lemma email_shape_pad (x s : string) :
  all_in (re.NoneOf ["@"%char]) x = true ->
  email_shape s -> email_shape (x ++ s) /\ email_shape (s ++ x).
Proof.
  intros Hx (a & b & c & -> & [Ha Ha'] & Hb & [Hc Hc']). split.
  - exists (x ++ a), b, c. rewrite append_assoc.
    repeat split; try apply Hb; try assumption.
    + destruct x; [ exact Ha | discriminate ].
    + now rewrite all_in_app, Hx, Ha'.
  - exists a, b, (c ++ x).
    rewrite append_assoc. cbn [append]. rewrite append_assoc. cbn [append].
    repeat split; try apply Hb; try assumption.
    + now apply append_nonempty.
    + now rewrite all_in_app, Hc', Hx.
Qed.

(** Two splittings of one text at an [@], with no [@] before it, agree. *)
Lemma split_at_unique (a a' r r' : string) :
  count_char "@" a = 0%nat -> count_char "@" a' = 0%nat ->
  a ++ String "@" r = a' ++ String "@" r' -> a = a' /\ r = r'.
Proof.
  revert a'. induction a as [ | x a IH ]; intros [ | y a' ];
    cbn [append count_char]; intros Ha Ha' H.
  - injection H as ->. now split.
  - injection H as <- _. rewrite Ascii.eqb_refl in Ha'. discriminate.
  - injection H as -> _. rewrite Ascii.eqb_refl in Ha. discriminate.
  - injection H as -> H.
    destruct (Ascii.eqb y "@"); [ discriminate | ].
    destruct (IH a' Ha Ha' H) as [-> ->]. now split.
Qed.

Lemma email_shape_needs_dot (a b : string) :
  all_in (re.NoneOf ["."%char]) b = true ->
  ~ email_shape (a ++ String "@" b).
Proof.
  intros Hb Hs. pose proof (email_shape_one_at Hs) as Hcount.
  rewrite count_char_app in Hcount. cbn [count_char] in Hcount.
  rewrite Ascii.eqb_refl in Hcount.
  destruct Hs as (a' & b' & c' & E & [_ Ha'] & _ & _).
  apply all_in_NoneOf_count in Ha'.
  apply split_at_unique in E; [ | lia | exact Ha' ].
  destruct E as [_ ->].
  rewrite all_in_app in Hb. cbn [all_in] in Hb.
  rewrite andb_true_iff in Hb. destruct Hb as [_ Hb].
  cbn in Hb. discriminate.
Qed.

Lemma UserCreate_validate_Some (username email : string) (user : UserCreate.t) :
  UserCreate.validate username email = Some user ->
  user = UserCreate.mk username email
  /\ (3 <= String.length username <= 50)%nat
  /\ email_shape email.
Proof.
  intros H.
  assert (user = UserCreate.mk username email) as ->.
  { unfold UserCreate.validate in H.
    destruct (validate_str UserCreate.username_field username
              && validate_str UserCreate.email_field email);
      [ now injection H | discriminate ]. }
  split; [ reflexivity | now apply UserCreate_validate_accepts ].
Qed.

(* ================================================================== *)
(** * The two protected endpoints, case by case *)

Lemma call_create_user (int_validator : string -> option Z)
    (params : list (string * string)) (r : Request) (w : World) :
  call int_validator (BodyParam verify_token create_user) params r w
  = match body r with
    | Undecodable => (Rejected BodyDecodeError, w)
    | Decoded fields =>
        match bearer r with
        | None => (Rejected NotAuthenticated, w)
        | Some c =>
            if String.eqb (credentials c) "valid-token"
            then match fields with
                 | Some (username, email) =>
                     match UserCreate.validate username email with
                     | Some _ =>
                         (Success (Model (UserResponse.mk 1 username email)),
                          (w ++ [creating username])%list)
                     | None => (Rejected RequestValidationError, w)
                     end
                 | None => (Rejected RequestValidationError, w)
                 end
            else (Failure unauthorized, w)
        end
    end.
Proof.
  unfold call, need, and_then, respond.
  destruct (body r) as [ | fields ]; [ reflexivity | ].
  destruct (bearer r) as [c | ]; [ | reflexivity ].
  rewrite verify_token_eqb.
  destruct (String.eqb (credentials c) "valid-token"); [ | reflexivity ].
  destruct fields as [[username email] | ]; [ | reflexivity ].
  destruct (UserCreate.validate username email) as [user | ] eqn:E;
    [ | reflexivity ].
  apply UserCreate_validate_Some in E as [-> _].
  now rewrite create_user_runs.
Qed.

Lemma call_get_user (int_validator : string -> option Z)
    (params : list (string * string)) (r : Request) (w : World) :
  call int_validator (IntPathParam "user_id" verify_token get_user) params r w
  = match bearer r with
    | None => (Rejected NotAuthenticated, w)
    | Some c =>
        if String.eqb (credentials c) "valid-token"
        then match match lookup_param "user_id" params with
                   | Some seg => int_validator seg
                   | None => None
                   end with
             | Some user_id =>
                 if user_id <=? 0
                 then (Failure invalid_user_id, w)
                 else (Success
                         (Model (UserResponse.mk user_id "john_doe"
                                                 "john@example.com")), w)
             | None => (Rejected RequestValidationError, w)
             end
        else (Failure unauthorized, w)
    end.
Proof.
  unfold call, need, and_then, respond.
  destruct (bearer r) as [c | ]; [ | reflexivity ].
  rewrite verify_token_eqb.
  destruct (String.eqb (credentials c) "valid-token"); [ | reflexivity ].
  destruct (match lookup_param "user_id" params with
            | Some seg => int_validator seg
            | None => None
            end) as [user_id | ]; [ | reflexivity ].
  rewrite get_user_runs. destruct (user_id <=? 0); reflexivity.
Qed.

(** What [handle] does, by the route it selects. *)
Lemma handle_by_route (int_validator : string -> option Z) (r : Request)
    (w : World) :
  (exists e, handle int_validator app r w = (Rejected e, w)
             /\ (e = NotFound \/ e = MethodNotAllowed))
  \/ (exists page, handle int_validator app r w = (Documentation page, w))
  \/ (method r = GET
      /\ exists c, handle int_validator app r w = (Success (Dict c), w))
  \/ (method r = POST
      /\ handle int_validator app r w
         = call int_validator (BodyParam verify_token create_user) [] r w)
  \/ (method r = GET
      /\ exists params,
           handle int_validator app r w
           = call int_validator
                  (IntPathParam "user_id" verify_token get_user) params r w).
Proof.
  unfold handle.
  destruct (find_route (routes app) false r) as [e | [rt params]] eqn:E.
  - left. exists e. split; [ reflexivity | ].
    clear -E. revert E. generalize false.
    induction (routes app) as [ | x rs IH ]; intros partial; cbn.
    + intros H. injection H as <-. destruct partial; auto.
    + destruct (match_path (route_path x) (path r)); [ | apply IH ].
      destruct (existsb (Method_eqb (method r)) (route_methods x));
        [ discriminate | ].
      apply IH.
  - right.
    pose proof (find_route_method _ _ _ E) as Hm.
    apply find_route_In in E. cbn in E.
    destruct E as [<- | [<- | [<- | [<- | [<- | [<- | [<- | [<- | []]]]]]]]];
      cbn [route_methods In] in Hm.
    + left. eexists. reflexivity.
    + left. eexists. reflexivity.
    + left. eexists. reflexivity.
    + left. eexists. reflexivity.
    + right. left. destruct Hm as [Hm | []]. split; [ now symmetry | ].
      eexists. reflexivity.
    + right. left. destruct Hm as [Hm | []]. split; [ now symmetry | ].
      eexists. reflexivity.
    + right. right. left. destruct Hm as [Hm | []].
      split; [ now symmetry | ]. cbn [endpoint]. unfold call. reflexivity.
    + right. right. right. destruct Hm as [Hm | []].
      split; [ now symmetry | ]. exists params. reflexivity.
Qed.

(* ================================================================== *)
(** * Further properties of the models *)

(** X1.  An email that [UserCreate] accepts holds exactly one [@] and has
    at least five characters; the instance keeps the two texts as they were
    given.  Five is reached by [a@b.c]. *)
Theorem accepted_email_one_at (username email : string) (user : UserCreate.t)
    (Hvalid : UserCreate.validate username email = Some user) :
  count_char "@" (UserCreate.email user) = 1%nat
  /\ (5 <= String.length (UserCreate.email user))%nat
  /\ UserCreate.username user = username
  /\ UserCreate.email user = email
  /\ UserCreate.validate "abc" "a@b.c" = Some (UserCreate.mk "abc" "a@b.c").
Proof.
  apply UserCreate_validate_Some in Hvalid as (-> & _ & Hs).
  cbn [UserCreate.email UserCreate.username].
  split; [ now apply email_shape_one_at | ].
  split; [ now apply email_shape_length | ].
  repeat split.
Qed.

(** X2.  The anchors of the email pattern do not keep surrounding text out:
    an accepted email stays accepted when any text without [@] is put before
    it or after it, blanks and newlines included, and nothing is trimmed. *)
Theorem accepted_email_padding (username email pad : string)
    (user : UserCreate.t)
    (Hvalid : UserCreate.validate username email = Some user)
    (Hpad : count_char "@" pad = 0%nat) :
  UserCreate.validate username (pad ++ email)
  = Some (UserCreate.mk username (pad ++ email))
  /\ UserCreate.validate username (email ++ pad)
     = Some (UserCreate.mk username (email ++ pad)).
Proof.
  apply UserCreate_validate_Some in Hvalid as (_ & Hlen & Hs).
  apply all_in_NoneOf_count in Hpad.
  destruct (@email_shape_pad pad email Hpad Hs) as [Hbefore Hafter].
  split; apply UserCreate_validate_accepts; auto.
Qed.

(** X3.  An email whose text after an [@] holds no dot is refused, whatever
    stands before that [@] and whatever the username: [user@localhost] does
    not pass. *)
Theorem email_without_dot_refused (username local domain : string)
    (Hdomain : count_char "." domain = 0%nat) :
  UserCreate.validate username (local ++ String "@" domain) = None
  /\ re.match_ "^[^@]+@[^@]+\.[^@]+$" (local ++ String "@" domain) = false.
Proof.
  apply all_in_NoneOf_count in Hdomain.
  pose proof (@email_shape_needs_dot local domain Hdomain) as Hno.
  split.
  - apply UserCreate_validate_refuses. intros [_ H]. exact (Hno H).
  - apply not_true_is_false. intros H. apply email_match in H. exact (Hno H).
Qed.

(* ================================================================== *)
(** * Further properties of the requests *)

(** X4.  [POST /users] checks in a fixed order.  A body that cannot be
    decoded is answered by the framework before anything else, whatever the
    credentials.  Otherwise a request without credentials is refused as
    unauthenticated; one with a token other than ["valid-token"] gets the
    401, whatever the decoded body holds; only then a missing or refused
    body gets the validation error; and only an accepted body reaches
    [create_user].  The log changes in the last case alone. *)
Theorem post_users_outcome (int_validator : string -> option Z)
    (b : option HTTPAuthorizationCredentials) (body : Body) (w : World) :
  handle int_validator app (mkRequest POST "/users" b body) w
  = match body with
    | Undecodable => (Rejected BodyDecodeError, w)
    | Decoded fields =>
        match b with
        | None => (Rejected NotAuthenticated, w)
        | Some c =>
            if String.eqb (credentials c) "valid-token"
            then match fields with
                 | Some (username, email) =>
                     match UserCreate.validate username email with
                     | Some _ =>
                         (Success (Model (UserResponse.mk 1 username email)),
                          (w ++ [creating username])%list)
                     | None => (Rejected RequestValidationError, w)
                     end
                 | None => (Rejected RequestValidationError, w)
                 end
            else (Failure unauthorized, w)
        end
    end.
Proof.
  unfold handle. rewrite find_route_create_user.
  cbn [endpoint create_user_route]. now rewrite call_create_user.
Qed.

(** X5.  [GET /users/{user_id}] checks in a fixed order: credentials, then
    the token, then the conversion of the path segment to an [int], and only
    then the guard of [get_user]; the log is never touched. *)
Theorem get_user_outcome (int_validator : string -> option Z) (seg : string)
    (b : option HTTPAuthorizationCredentials)
    (body : Body) (w : World)
    (Hseg : segment seg) :
  handle int_validator app (mkRequest GET ("/users/" ++ seg) b body) w
  = match b with
    | None => (Rejected NotAuthenticated, w)
    | Some c =>
        if String.eqb (credentials c) "valid-token"
        then match int_validator seg with
             | Some user_id =>
                 if user_id <=? 0
                 then (Failure invalid_user_id, w)
                 else (Success
                         (Model (UserResponse.mk user_id "john_doe"
                                                 "john@example.com")), w)
             | None => (Rejected RequestValidationError, w)
             end
        else (Failure unauthorized, w)
    end.
Proof.
  unfold handle. rewrite (find_route_get_user _ _ Hseg).
  cbn [endpoint get_user_route]. rewrite call_get_user.
  cbn [lookup_param bearer]. now rewrite String.eqb_refl.
Qed.

(** X6.  The log after a request is the log before it, with one record
    more exactly when the request is a [POST] answered with a created user:
    the record [create_user] writes for that user's name.  The name then
    has 3 to 50 characters, so the message has at most 65. *)
Theorem log_grows_only_on_creation (int_validator : string -> option Z)
    (r : Request) (w : World) :
  snd (handle int_validator app r w)
  = match method r, fst (handle int_validator app r w) with
    | POST, Success (Model u) =>
        (w ++ [creating (UserResponse.username u)])%list
    | _, _ => w
    end
  /\ match method r, fst (handle int_validator app r w) with
     | POST, Success (Model u) =>
         (3 <= String.length (UserResponse.username u) <= 50)%nat
         /\ (String.length (logging.msg (creating (UserResponse.username u)))
             <= 65)%nat
     | _, _ => True
     end.
Proof.
  destruct (handle_by_route int_validator r w)
    as [(e & -> & _) | [(page & ->) | [(Hm & c & ->)
       | [(Hm & ->) | (Hm & params & ->)]]]].
  - cbn [fst snd]. destruct (method r); split; auto.
  - cbn [fst snd]. destruct (method r); split; auto.
  - rewrite Hm. cbn [fst snd]. split; auto.
  - rewrite Hm, call_create_user.
    destruct (body r) as [ | fields ]; [ split; cbn; auto | ].
    destruct (bearer r) as [c | ]; [ | split; cbn; auto ].
    destruct (String.eqb (credentials c) "valid-token");
      [ | split; cbn; auto ].
    destruct fields as [[username email] | ]; [ | split; cbn; auto ].
    destruct (UserCreate.validate username email) as [user | ] eqn:E;
      [ | split; cbn; auto ].
    apply UserCreate_validate_Some in E as (_ & Hlen & _).
    cbn [fst snd UserResponse.username]. split; [ reflexivity | ].
    split; [ exact Hlen | ].
    cbn [creating logging.msg]. rewrite length_app. cbn [String.length]. lia.
  - rewrite Hm, call_get_user.
    destruct (bearer r) as [c | ]; [ | split; cbn; auto ].
    destruct (String.eqb (credentials c) "valid-token");
      [ | split; cbn; auto ].
    destruct (match lookup_param "user_id" params with
              | Some seg => int_validator seg
              | None => None
              end) as [user_id | ]; [ | split; cbn; auto ].
    destruct (user_id <=? 0); split; cbn; auto.
Qed.

(** X7.  Every [UserResponse] the service sends has an [id] of at least 1,
    and a [username] and an [email] that [UserCreate] itself accepts. *)
Theorem returned_users_are_valid (int_validator : string -> option Z)
    (r : Request) (w w' : World) (u : UserResponse.t)
    (H : handle int_validator app r w = (Success (Model u), w')) :
  1 <= UserResponse.id u
  /\ UserCreate.validate (UserResponse.username u) (UserResponse.email u)
     = Some (UserCreate.mk (UserResponse.username u) (UserResponse.email u)).
Proof.
  destruct (handle_by_route int_validator r w)
    as [(e & E & _) | [(page & E) | [(_ & c & E)
       | [(Hm & E) | (_ & params & E)]]]];
    rewrite E in H; try discriminate.
  - rewrite call_create_user in H.
    destruct (body r) as [ | fields ]; [ discriminate | ].
    destruct (bearer r) as [c | ]; [ | discriminate ].
    destruct (String.eqb (credentials c) "valid-token"); [ | discriminate ].
    destruct fields as [[username email] | ]; [ | discriminate ].
    destruct (UserCreate.validate username email) as [user | ] eqn:Ev;
      [ | discriminate ].
    injection H as <- _. cbn [UserResponse.id UserResponse.username
                              UserResponse.email].
    apply UserCreate_validate_Some in Ev as (-> & Hlen & Hs).
    split; [ lia | now apply UserCreate_validate_accepts ].
  - rewrite call_get_user in H.
    destruct (bearer r) as [c | ]; [ | discriminate ].
    destruct (String.eqb (credentials c) "valid-token"); [ | discriminate ].
    destruct (match lookup_param "user_id" params with
              | Some seg => int_validator seg
              | None => None
              end) as [user_id | ]; [ | discriminate ].
    destruct (Z.leb_spec user_id 0) as [Hle | Hgt]; [ discriminate | ].
    injection H as <- _. cbn [UserResponse.id UserResponse.username
                              UserResponse.email].
    split; [ lia | reflexivity ].
Qed.

(** X8.  A request whose method is neither [GET] nor [POST] runs no code of
    the module: it is answered with nothing a handler returns and with no
    [HTTPException], and it leaves the log as it was. *)
Theorem other_methods_rejected (int_validator : string -> option Z)
    (r : Request) (w : World)
    (Hget : method r <> GET) (Hpost : method r <> POST) :
  snd (handle int_validator app r w) = w
  /\ (forall c, fst (handle int_validator app r w) <> Success c)
  /\ (forall e, fst (handle int_validator app r w) <> Failure e).
Proof.
  destruct (handle_by_route int_validator r w)
    as [(e & -> & _) | [(page & ->) | [(Hm & _) | [(Hm & _) | (Hm & _)]]]];
    try contradiction;
    (split; [ reflexivity | split; intros x; discriminate ]).
Qed.



(* ================================================================== *)
(** * Instances of the further properties *)

(** [accepted_email_one_at] at [alice@example.com]. *)
Lemma accepted_email_one_at_witness :
  UserCreate.validate "alice" "alice@example.com"
  = Some (UserCreate.mk "alice" "alice@example.com")
  /\ count_char "@" "alice@example.com" = 1%nat
  /\ (5 <= String.length "alice@example.com")%nat.
Proof.
  assert (Hv : UserCreate.validate "alice" "alice@example.com"
               = Some (UserCreate.mk "alice" "alice@example.com"))
    by reflexivity.
  split; [ exact Hv | ].
  pose proof (@accepted_email_one_at "alice" "alice@example.com" _ Hv)
    as (Hat & Hlen & _).
  split; [ exact Hat | exact Hlen ].
Defined.

(** [accepted_email_padding] with a newline as the padding. *)
Lemma accepted_email_padding_witness :
  UserCreate.validate "alice" "alice@example.com"
  = Some (UserCreate.mk "alice" "alice@example.com")
  /\ count_char "@" (String "010" "") = 0%nat
  /\ UserCreate.validate "alice" ("alice@example.com" ++ String "010" "")
     = Some (UserCreate.mk "alice" ("alice@example.com" ++ String "010" "")).
Proof.
  assert (Hv : UserCreate.validate "alice" "alice@example.com"
               = Some (UserCreate.mk "alice" "alice@example.com"))
    by reflexivity.
  assert (Hp : count_char "@" (String "010" "") = 0%nat) by reflexivity.
  split; [ exact Hv | ]. split; [ exact Hp | ].
  exact (proj2 (@accepted_email_padding "alice" "alice@example.com"
                                        (String "010" "") _ Hv Hp)).
Defined.

(** [email_without_dot_refused] at [user@localhost]. *)
Lemma email_without_dot_refused_witness :
  count_char "." "localhost" = 0%nat
  /\ UserCreate.validate "alice" "user@localhost" = None.
Proof.
  assert (Hd : count_char "." "localhost" = 0%nat) by reflexivity.
  split; [ exact Hd | ].
  exact (proj1 (@email_without_dot_refused "alice" "user" "localhost" Hd)).
Defined.

(** [get_user_outcome] at [GET /users/abc] with the accepted token: the
    segment is no numeral. *)
Lemma get_user_outcome_witness :
  segment "abc"
  /\ handle decimal app
            (mkRequest GET "/users/abc"
                       (Some (mkCredentials "Bearer" "valid-token"))
                       (Decoded None)) []
     = (Rejected RequestValidationError, []).
Proof.
  assert (Hs : segment "abc") by (split; [ discriminate | reflexivity ]).
  split; [ exact Hs | ].
  exact (@get_user_outcome decimal "abc"
           (Some (mkCredentials "Bearer" "valid-token")) (Decoded None) []
           Hs).
Defined.

(** [returned_users_are_valid] at the creation of [alice]. *)
Lemma returned_users_are_valid_witness :
  handle decimal app
         (mkRequest POST "/users"
                    (Some (mkCredentials "Bearer" "valid-token"))
                    (Decoded (Some ("alice", "alice@example.com")))) []
  = (Success (Model (UserResponse.mk 1 "alice" "alice@example.com")),
     [creating "alice"])
  /\ 1 <= UserResponse.id (UserResponse.mk 1 "alice" "alice@example.com").
Proof.
  assert (H : handle decimal app
                (mkRequest POST "/users"
                           (Some (mkCredentials "Bearer" "valid-token"))
                           (Decoded (Some ("alice", "alice@example.com")))) []
              = (Success
                   (Model (UserResponse.mk 1 "alice" "alice@example.com")),
                 [creating "alice"])) by reflexivity.
  split; [ exact H | ].
  exact (proj1 (@returned_users_are_valid decimal _ _ _ _ H)).
Defined.

(** [other_methods_rejected] at [DELETE /users/5]. *)
Lemma other_methods_rejected_witness :
  DELETE <> GET
  /\ DELETE <> POST
  /\ handle decimal app
            (mkRequest DELETE "/users/5"
                       (Some (mkCredentials "Bearer" "valid-token"))
                       (Decoded None)) []
     = (Rejected MethodNotAllowed, [])
  /\ snd (handle decimal app
                 (mkRequest DELETE "/users/5"
                            (Some (mkCredentials "Bearer" "valid-token"))
                            (Decoded None)) [])
     = [].
Proof.
  assert (Hg : DELETE <> GET) by discriminate.
  assert (Hp : DELETE <> POST) by discriminate.
  split; [ exact Hg | ]. split; [ exact Hp | ].
  split; [ reflexivity | ].
  exact (proj1 (@other_methods_rejected decimal
                  (mkRequest DELETE "/users/5"
                             (Some (mkCredentials "Bearer" "valid-token"))
                             (Decoded None))
                  [] Hg Hp)).
Defined.

